(** * Bluetooth patch resolution of the EFI builder

    A shallow embedding of [opencore_legacy_patcher/efi_builder/bluetooth.py]
    (class [BuildBluetooth]) and the properties its specification states.

    The Python class works by mutating [self.config], the in-memory
    bootloader configuration document, and by calling
    [support.BuildSupport.enable_kext].  Each such statement is embedded as
    one primitive of a small monad that threads the document, records the
    statement as a [PatchAction] in an ordered trace, and carries Python
    exceptions.  The specification's "action sequence" of an evaluator is the
    trace of the corresponding method: [_on_model] is the live rule
    evaluator, [_prebuilt_assumption] the fallback rule evaluator and
    [_build] the resolver.  The calls to [logging.info] narrate which branch
    fired and are left out. *)

From Stdlib Require Import ZArith String Ascii List Lia Permutation.
From Stdlib.Strings Require Import Byte.
From stdpp Require Import gmap strings list fin_maps.

Local Open Scope Z_scope.

(* ===================================================================== *)
(** ** Values                                                              *)
(* ===================================================================== *)

(** [binascii.unhexlify]: two hexadecimal digits per byte; an odd length or
    a character that is no hexadecimal digit is an error ([None]). *)
Definition hex_digit (c : ascii) : option N :=
  let n := N_of_ascii c in
  if ((48 <=? n) && (n <=? 57))%N then Some (n - 48)%N
  else if ((97 <=? n) && (n <=? 102))%N then Some (n - 87)%N
  else if ((65 <=? n) && (n <=? 70))%N then Some (n - 55)%N
  else None.

Fixpoint unhexlify (hexstr : string) : option (list byte) :=
  match hexstr with
  | EmptyString => Some []
  | String _ EmptyString => None
  | String hi (String lo rest) =>
      match hex_digit hi, hex_digit lo, unhexlify rest with
      | Some h, Some l, Some bs =>
          match Byte.of_N (16 * h + l) with
          | Some b => Some (b :: bs)
          | None => None
          end
      | _, _, _ => None
      end
  end.

(** Python truthiness of an [Optional[str]]: [None] and the empty string are
    false. *)
Definition truthy (o : option string) : bool :=
  match o with
  | Some s => negb (String.eqb s "")
  | None => false
  end.

(* ===================================================================== *)
(** ** The collaborators of [BuildBluetooth]                               *)
(* ===================================================================== *)

(** Modelled from the spec: [device_probe] is not among the sources at hand.
    The companion wireless card carries a chipset tag; [bluetooth.py] names
    one of them, [device_probe.Broadcom.Chipsets.AirPortBrcm4360], and
    compares the card's tag with it.  Every other tag is [OtherChipset]. *)
Inductive WifiChipset :=
| AirPortBrcm4360
| OtherChipset (tag : string).

#[global] Instance WifiChipset_eq_dec : EqDecision WifiChipset.
Proof. solve_decision. Defined.

Record WirelessCard := mkWirelessCard { chipset : WifiChipset }.

(** [device_probe.Computer], the fields [bluetooth.py] reads.  In
    [if self.computer.wifi:] a card object is true and [None] is false. *)
Record Computer := mkComputer {
  bluetooth_chipset : option string;
  wifi : option WirelessCard
}.

(** [constants.Constants], the fields [bluetooth.py] reads. *)
Record Constants := mkConstants {
  custom_model : bool;
  computer : Computer;
  bluetool_version : string;
  bluetool_path : string;
  btspoof_version : string;
  btspoof_path : string
}.

(** One entry of [smbios_data.smbios_dictionary].  An entry is a Python dict:
    either key may be missing. *)
Record SmbiosEntry := mkSmbiosEntry {
  CPU_Generation : option Z;     (* entry["CPU Generation"] *)
  Bluetooth_Model : option Z     (* entry["Bluetooth Model"] *)
}.

(** The module-level reference data: the static model table and the three
    enumeration values the code compares with.  The [datasets] package is not
    among the sources at hand, so the table and the ordinals are taken as they
    come. *)
Record Datasets := mkDatasets {
  smbios_dictionary : gmap string SmbiosEntry;
  ivy_bridge : Z;        (* cpu_data.CPUGen.ivy_bridge.value *)
  BRCM20702_v1 : Z;      (* bluetooth_data.bluetooth_data.BRCM20702_v1.value *)
  BRCM2070 : Z           (* bluetooth_data.bluetooth_data.BRCM2070.value *)
}.

(* ===================================================================== *)
(** ** The configuration document and the patch actions                    *)
(* ===================================================================== *)

(** The sections of [self.config] that [bluetooth.py] touches, all under the
    namespace 7C436110-AB2A-4BBB-A880-FE41995C9F82 for NVRAM.  The document
    is the bootloader template, whose sections exist; [boot-args] is kept
    apart from the other NVRAM additions because it is a string that is
    appended to, while the others are byte values that are assigned.  In the
    source both live in the one dictionary NVRAM / Add / GUID: [nvram_add]
    stands for its keys other than [boot-args], and [nvram_add_get] below
    reads the dictionary as a whole. *)
Record Config := mkConfig {
  boot_args : string;                      (* NVRAM / Add / GUID / boot-args *)
  nvram_add : gmap string (list byte);     (* NVRAM / Add / GUID / other keys *)
  nvram_delete : list string;              (* NVRAM / Delete / GUID *)
  kernel_quirks : gmap string bool;        (* Kernel / Quirks *)
  kexts : list (string * string * string)  (* patches registered by enable_kext *)
}.

(** The statements by which the code changes the document. *)
Inductive PatchAction :=
| EnablePatch (name version sourceLocator : string)
| SetBootArgument (token : string)
| SetFirmwareVariable (key : string) (bytes : list byte)
| DeleteFirmwareVariable (key : string)
| SetQuirkFlag (key : string) (flag : bool).

#[global] Instance byte_eq_dec : EqDecision byte.
Proof. intros x y. destruct (Byte.eqb x y) eqn:E.
  - left. by apply Byte.byte_dec_bl.
  - right. intros ->. by rewrite Byte.byte_dec_lb in E.
Defined.

#[global] Instance PatchAction_eq_dec : EqDecision PatchAction.
Proof. solve_decision. Defined.

(** Modelled from the spec: [support.BuildSupport.enable_kext] is not among
    the sources at hand.  Enabling a patch "registers a named patch with a
    version and source-path reference in a patch-enablement list". *)
Definition register_kext (name version path : string) (cfg : Config) : Config :=
  mkConfig (boot_args cfg) (nvram_add cfg) (nvram_delete cfg)
           (kernel_quirks cfg) (kexts cfg ++ [(name, version, path)]).

(** What one action does to the document.  The boot argument is appended
    after a space, as in [boot-args += " -btlfxallowanyaddr"]. *)
Definition apply_action (a : PatchAction) (cfg : Config) : Config :=
  match a with
  | EnablePatch name version path => register_kext name version path cfg
  | SetBootArgument token =>
      mkConfig (boot_args cfg +:+ " " +:+ token) (nvram_add cfg)
               (nvram_delete cfg) (kernel_quirks cfg) (kexts cfg)
  | SetFirmwareVariable key bytes =>
      mkConfig (boot_args cfg) (<[key := bytes]> (nvram_add cfg))
               (nvram_delete cfg) (kernel_quirks cfg) (kexts cfg)
  | DeleteFirmwareVariable key =>
      mkConfig (boot_args cfg) (nvram_add cfg) (nvram_delete cfg ++ [key])
               (kernel_quirks cfg) (kexts cfg)
  | SetQuirkFlag key flag =>
      mkConfig (boot_args cfg) (nvram_add cfg) (nvram_delete cfg)
               (<[key := flag]> (kernel_quirks cfg)) (kexts cfg)
  end.

Definition apply_actions (acts : list PatchAction) (cfg : Config) : Config :=
  fold_left (fun c a => apply_action a c) acts cfg.

(* ===================================================================== *)
(** ** The monad of the methods                                            *)
(* ===================================================================== *)

Inductive PyError :=
| KeyError (key : string)
| BinasciiError.

(** What a method leaves behind: the actions it performed, in order, the
    document as it stands, and either the exception that stopped it or its
    return value.  The document is mutated in place, so the actions performed
    before an exception stay performed. *)
Record Outcome (A : Type) := mkOutcome {
  trace : list PatchAction;
  final : Config;
  value : PyError + A
}.
Arguments mkOutcome {A} _ _ _.
Arguments trace {A} _.
Arguments final {A} _.
Arguments value {A} _.

Definition M (A : Type) : Type := Config -> Outcome A.

#[global] Instance M_ret : MRet M :=
  fun A (a : A) cfg => mkOutcome [] cfg (inr a).

#[global] Instance M_bind : MBind M :=
  fun A B (k : A -> M B) (m : M A) cfg =>
    let o := m cfg in
    match value o with
    | inl e => mkOutcome (trace o) (final o) (inl e)
    | inr a =>
        let o' := k a (final o) in
        mkOutcome (trace o ++ trace o') (final o') (value o')
    end.

Definition raise {A : Type} (e : PyError) : M A :=
  fun cfg => mkOutcome [] cfg (inl e).

Definition emit (a : PatchAction) : M () :=
  fun cfg => mkOutcome [a] (apply_action a cfg) (inr ()).

(** [support.BuildSupport(model, constants, config).enable_kext(name, version, path)] *)
Definition enable_kext (name version path : string) : M () :=
  emit (EnablePatch name version path).

(** [config["NVRAM"]["Add"][GUID][key] = binascii.unhexlify(hexstr)] *)
Definition nvram_add_unhexlify (key hexstr : string) : M () :=
  match unhexlify hexstr with
  | Some bytes => emit (SetFirmwareVariable key bytes)
  | None => raise BinasciiError
  end.

(** [config["NVRAM"]["Delete"][GUID] += keys] *)
Fixpoint nvram_delete_extend (keys : list string) : M () :=
  match keys with
  | [] => mret ()
  | key :: rest => emit (DeleteFirmwareVariable key) ;; nvram_delete_extend rest
  end.

(** [entry["CPU Generation"]] *)
Definition get_CPU_Generation (entry : SmbiosEntry) : M Z :=
  match CPU_Generation entry with
  | Some gen => mret gen
  | None => raise (KeyError "CPU Generation")
  end.

(* ===================================================================== *)
(** ** [class BuildBluetooth]                                              *)
(* ===================================================================== *)

(** The object: [self.model] and [self.constants]; [self.computer] is
    [self.constants.computer], and [self.config] is the document the monad
    threads. *)
Record BuildBluetooth := mkBuildBluetooth {
  model : string;
  constants : Constants
}.

Definition self_computer (self : BuildBluetooth) : Computer :=
  computer (constants self).

Definition _bluetooth_firmware_incompatibility_workaround : M () :=
  nvram_add_unhexlify "bluetoothInternalControllerInfo" "0000000000000000000000000000" ;;
  nvram_add_unhexlify "bluetoothExternalDongleFailed" "00" ;;
  nvram_delete_extend ["bluetoothInternalControllerInfo"; "bluetoothExternalDongleFailed"].

Definition _on_model (D : Datasets) (self : BuildBluetooth) : M () :=
  let c := constants self in
  if bool_decide (bluetooth_chipset (self_computer self)
                    ∈ [Some "BRCM2070 Hub"; Some "BRCM2046 Hub"]) then
    enable_kext "BlueToolFixup.kext" (bluetool_version c) (bluetool_path c) ;;
    enable_kext "Bluetooth-Spoof.kext" (btspoof_version c) (btspoof_path c) ;;
    (* boot-args += " -btlfxallowanyaddr" *)
    emit (SetBootArgument "-btlfxallowanyaddr") ;;
    _bluetooth_firmware_incompatibility_workaround
  else if bool_decide (bluetooth_chipset (self_computer self) = Some "BRCM20702 Hub") then
    match wifi (self_computer self) with
    | Some card =>
        if bool_decide (chipset card = AirPortBrcm4360) then
          enable_kext "BlueToolFixup.kext" (bluetool_version c) (bluetool_path c)
        else mret ()
    | None => mret ()
    end ;;
    match smbios_dictionary D !! model self with
    | Some entry =>
        gen ← get_CPU_Generation entry ;
        if gen <? ivy_bridge D then
          enable_kext "BlueToolFixup.kext" (bluetool_version c) (bluetool_path c) ;;
          _bluetooth_firmware_incompatibility_workaround
        else mret ()
    | None => mret ()
    end
  else if bool_decide (bluetooth_chipset (self_computer self)
                         ∈ [Some "3rd Party Bluetooth 4.0 Hub"; Some "Generic"]) then
    enable_kext "BlueToolFixup.kext" (bluetool_version c) (bluetool_path c) ;;
    emit (SetQuirkFlag "ExtendBTFeatureFlags" true)
  else mret ().

Definition _prebuilt_assumption (D : Datasets) (self : BuildBluetooth) : M () :=
  let c := constants self in
  match smbios_dictionary D !! model self with
  | None => mret ()
  | Some entry =>
      match Bluetooth_Model entry with
      | None => mret ()
      | Some tier =>
          if tier <=? BRCM20702_v1 D then
            enable_kext "BlueToolFixup.kext" (bluetool_version c) (bluetool_path c) ;;
            if tier <=? BRCM2070 D then
              (* boot-args += " -btlfxallowanyaddr" *)
              emit (SetBootArgument "-btlfxallowanyaddr") ;;
              _bluetooth_firmware_incompatibility_workaround ;;
              enable_kext "Bluetooth-Spoof.kext" (btspoof_version c) (btspoof_path c)
            else mret ()
          else mret ()
      end
  end.

Definition _build (D : Datasets) (self : BuildBluetooth) : M () :=
  if negb (custom_model (constants self))
     && truthy (bluetooth_chipset (self_computer self))
  then _on_model D self
  else _prebuilt_assumption D self.

Definition __init__ (D : Datasets) (model : string) (global_constants : Constants) : M () :=
  _build D (mkBuildBluetooth model global_constants).

(* ===================================================================== *)
(** ** Vocabulary of the specification                                     *)
(* ===================================================================== *)

(** The two patches by the names the specification gives them. *)
Definition PrimaryBluetoothFixup (c : Constants) : PatchAction :=
  EnablePatch "BlueToolFixup.kext" (bluetool_version c) (bluetool_path c).

Definition BluetoothAddressSpoof (c : Constants) : PatchAction :=
  EnablePatch "Bluetooth-Spoof.kext" (btspoof_version c) (btspoof_path c).

Definition AllowAnyAddress : PatchAction :=
  SetBootArgument "-btlfxallowanyaddr".

Definition zero_bytes (n : nat) : list byte := repeat x00 n.

(** The firmware-incompatibility workaround with a controller-info value of
    [n] zero bytes. *)
Definition workaround_with (n : nat) : list PatchAction :=
  [ SetFirmwareVariable "bluetoothInternalControllerInfo" (zero_bytes n);
    SetFirmwareVariable "bluetoothExternalDongleFailed" (zero_bytes 1);
    DeleteFirmwareVariable "bluetoothInternalControllerInfo";
    DeleteFirmwareVariable "bluetoothExternalDongleFailed" ].

(** The block the code performs, and the block in the words of the
    specification (fifteen zero bytes). *)
Definition workaround_actions : list PatchAction := workaround_with 14.
Definition workaround_as_specified : list PatchAction := workaround_with 15.

(** The extended sequence of the oldest tier of the fallback path. *)
Definition extended_sequence (c : Constants) : list PatchAction :=
  [AllowAnyAddress] ++ workaround_actions ++ [BluetoothAddressSpoof c].

(** The chipset tags [_on_model] knows. *)
Definition known_tags : list string :=
  [ "BRCM2070 Hub"; "BRCM2046 Hub"; "BRCM20702 Hub";
    "3rd Party Bluetooth 4.0 Hub"; "Generic" ].

(** The first condition of the BRCM20702 branch. *)
Definition wifi_is_4360 (c : Computer) : bool :=
  match wifi c with
  | Some card => bool_decide (chipset card = AirPortBrcm4360)
  | None => false
  end.

(** The second condition of the BRCM20702 branch, for a model that is absent
    from the table or whose entry records a CPU generation. *)
Definition older_than_ivy_bridge (D : Datasets) (m : string) : bool :=
  match smbios_dictionary D !! m with
  | Some entry =>
      match CPU_Generation entry with
      | Some gen => gen <? ivy_bridge D
      | None => false
      end
  | None => false
  end.

(** The table is well formed at a model: its entry, if any, records a CPU
    generation. *)
Definition records_CPU_Generation (D : Datasets) (m : string) : Prop :=
  forall entry, smbios_dictionary D !! m = Some entry ->
                is_Some (CPU_Generation entry).

(** The same object with another detected chipset tag. *)
Definition with_chipset (tag : string) (self : BuildBluetooth) : BuildBluetooth :=
  let c := constants self in
  mkBuildBluetooth (model self)
    (mkConstants (custom_model c)
       (mkComputer (Some tag) (wifi (computer c)))
       (bluetool_version c) (bluetool_path c)
       (btspoof_version c) (btspoof_path c)).

(** The same reference data with the Bluetooth tier of one model set. *)
Definition with_tier (D : Datasets) (m : string) (gen : option Z) (tier : Z) : Datasets :=
  mkDatasets (<[m := mkSmbiosEntry gen (Some tier)]> (smbios_dictionary D))
             (ivy_bridge D) (BRCM20702_v1 D) (BRCM2070 D).

(** An action of the firmware-variable kind. *)
Definition is_firmware_action (a : PatchAction) : bool :=
  match a with
  | SetFirmwareVariable _ _ | DeleteFirmwareVariable _ => true
  | _ => false
  end.

Definition firmware_free (acts : list PatchAction) : Prop :=
  Forall (fun a => is_firmware_action a = false) acts.

(** [block] occurs in [acts] as a run of neighbours. *)
Definition contiguous_in (block acts : list PatchAction) : Prop :=
  exists pre post, acts = pre ++ block ++ post.

(** Either no firmware-variable action occurs, or they form exactly one
    workaround block, with the primary fixup somewhere before it. *)
Definition workaround_well_placed (c : Constants) (acts : list PatchAction) : Prop :=
  firmware_free acts \/
  exists pre post,
    acts = pre ++ workaround_actions ++ post /\
    PrimaryBluetoothFixup c ∈ pre /\
    firmware_free pre /\ firmware_free post.

(** A Bluetooth chipset was detected: the tag is set and not empty. *)
Definition detected (c : Computer) : Prop :=
  exists tag, bluetooth_chipset c = Some tag /\ tag <> "".

(** A run that performed [acts] and returned. *)
Definition performed (acts : list PatchAction) (cfg : Config) : Outcome () :=
  mkOutcome acts (apply_actions acts cfg) (inr ()).

(** The first condition of the BRCM20702 branch alone. *)
Definition wifi_part (self : BuildBluetooth) : list PatchAction :=
  if wifi_is_4360 (self_computer self)
  then [PrimaryBluetoothFixup (constants self)] else [].

(** The second condition of the BRCM20702 branch alone. *)
Definition generation_part (D : Datasets) (self : BuildBluetooth) : list PatchAction :=
  if older_than_ivy_bridge D (model self)
  then PrimaryBluetoothFixup (constants self) :: workaround_actions else [].


(** A method whose actions and result do not depend on the document it
    starts from, and whose effect on the document is that of its actions. *)
Definition config_oblivious {A : Type} (m : M A) : Prop :=
  exists acts v, forall cfg, m cfg = mkOutcome acts (apply_actions acts cfg) v.

(* ===================================================================== *)
(** ** Vocabulary of the further properties                                *)
(* ===================================================================== *)

(** The detected chipset is one of the two oldest hubs. *)
Definition is_legacy_hub (c : Computer) : Prop :=
  bluetooth_chipset c = Some "BRCM2070 Hub" \/
  bluetooth_chipset c = Some "BRCM2046 Hub".

(** The detected chipset is a third-party or generic one. *)
Definition is_third_party (c : Computer) : Prop :=
  bluetooth_chipset c = Some "3rd Party Bluetooth 4.0 Hub" \/
  bluetooth_chipset c = Some "Generic".

(** The table puts the model in the oldest tier: both comparisons of
    [_prebuilt_assumption] succeed. *)
Definition oldest_tier (D : Datasets) (m : string) : Prop :=
  exists entry tier,
    smbios_dictionary D !! m = Some entry /\
    Bluetooth_Model entry = Some tier /\
    tier <= BRCM20702_v1 D /\ tier <= BRCM2070 D.

(** The table entry of the model exists and lacks its CPU generation. *)
Definition lacks_CPU_Generation (D : Datasets) (m : string) : Prop :=
  exists entry, smbios_dictionary D !! m = Some entry /\
                CPU_Generation entry = None.

(** Two sets of constants name the same patch versions and paths. *)
Definition same_patches (c c' : Constants) : Prop :=
  bluetool_version c = bluetool_version c' /\
  bluetool_path c = bluetool_path c' /\
  btspoof_version c = btspoof_version c' /\
  btspoof_path c = btspoof_path c'.

(** The actions, if there are any, begin with BlueToolFixup. *)
Definition starts_with_fixup (c : Constants) (acts : list PatchAction) : Prop :=
  acts = [] \/ exists rest, acts = PrimaryBluetoothFixup c :: rest.

(** What a list of actions appends to [boot-args]. *)
Fixpoint boot_suffix (acts : list PatchAction) : string :=
  match acts with
  | [] => ""
  | SetBootArgument token :: rest => " " +:+ token +:+ boot_suffix rest
  | _ :: rest => boot_suffix rest
  end.



(** One value of the dictionary NVRAM / Add / GUID: the string of
    [boot-args] or the bytes of a variable. *)
Inductive NvramValue :=
| NvString (text : string)
| NvBytes (bytes : list byte).

(** [config["NVRAM"]["Add"][GUID].get(key)]: the dictionary of the source,
    with [boot-args] among its keys. *)
Definition nvram_add_get (cfg : Config) (key : string) : option NvramValue :=
  if decide (key = "boot-args") then Some (NvString (boot_args cfg))
  else NvBytes <$> nvram_add cfg !! key.

(** The trace of a method tells what became of [boot-args]. *)
Definition boot_args_follow_trace (run : M ()) : Prop :=
  forall cfg,
    (AllowAnyAddress ∈ trace (run cfg) ->
     boot_args (final (run cfg)) = boot_args cfg +:+ " -btlfxallowanyaddr") /\
    (AllowAnyAddress ∉ trace (run cfg) ->
     boot_args (final (run cfg)) = boot_args cfg).

(** The trace of a method tells what became of the NVRAM sections, the
    dictionary NVRAM / Add / GUID read key by key. *)
Definition nvram_follows_trace (run : M ()) : Prop :=
  forall cfg,
    (contiguous_in workaround_actions (trace (run cfg)) ->
     nvram_add_get (final (run cfg)) "bluetoothInternalControllerInfo"
     = Some (NvBytes (zero_bytes 14)) /\
     nvram_add_get (final (run cfg)) "bluetoothExternalDongleFailed"
     = Some (NvBytes (zero_bytes 1)) /\
     nvram_delete (final (run cfg))
     = nvram_delete cfg
       ++ ["bluetoothInternalControllerInfo"; "bluetoothExternalDongleFailed"]) /\
    (~ contiguous_in workaround_actions (trace (run cfg)) ->
     (forall key, nvram_add_get (final (run cfg)) key = nvram_add_get cfg key) /\
     nvram_delete (final (run cfg)) = nvram_delete cfg) /\
    (forall key, key <> "bluetoothInternalControllerInfo" ->
                 key <> "bluetoothExternalDongleFailed" ->
                 key <> "boot-args" ->
                 nvram_add_get (final (run cfg)) key = nvram_add_get cfg key).



(** A string of [2 * n] zero digits. *)
Fixpoint zero_digits (n : nat) : string :=
  match n with
  | O => ""
  | S k => String "0" (String "0" (zero_digits k))
  end.

(* ===================================================================== *)
(** ** Sample data                                                         *)
(* ===================================================================== *)

Module Sample.

Definition blank : Config := mkConfig "-v keepsyms=1" ∅ [] ∅ [].

Definition table : gmap string SmbiosEntry :=
  <["MacBookPro8,1" := mkSmbiosEntry (Some 5) (Some 4)]>
  (<["MacBookPro9,1" := mkSmbiosEntry (Some 6) (Some 5)]>
  (<["iMac14,1" := mkSmbiosEntry (Some 7) (Some 6)]>
  (<["Xserve3,1" := mkSmbiosEntry (Some 4) None]> ∅))).

Definition data : Datasets := mkDatasets table 6 5 4.

Definition machine (tag : option string) (card : option WirelessCard)
           (custom : bool) : Constants :=
  mkConstants custom (mkComputer tag card)
              "2.6.8" "BlueToolFixup-v2.6.8.zip"
              "3.0.1" "Bluetooth-Spoof-v3.0.1.zip".

Definition build (m : string) (tag : option string)
           (card : option WirelessCard) (custom : bool) : BuildBluetooth :=
  mkBuildBluetooth m (machine tag card custom).

Definition card4360 : WirelessCard := mkWirelessCard AirPortBrcm4360.
Definition card4331 : WirelessCard := mkWirelessCard (OtherChipset "AirPortBrcm4331").

(* A 2011 machine with an upgraded card: both BRCM20702 conditions hold. *)
Definition upgraded_2011 : BuildBluetooth :=
  build "MacBookPro8,1" (Some "BRCM20702 Hub") (Some card4360) false.

(* The same machine with its original chipsets, detected and not. *)
Definition stock_2046 : BuildBluetooth :=
  build "MacBookPro8,1" (Some "BRCM2046 Hub") None false.
Definition stock_2070 : BuildBluetooth :=
  build "MacBookPro8,1" (Some "BRCM2070 Hub") None false.
Definition stock_2070_custom : BuildBluetooth :=
  build "MacBookPro8,1" (Some "BRCM2070 Hub") None true.
Definition undetected : BuildBluetooth :=
  build "MacBookPro8,1" None None false.

(* A chipset tag the code does not know, a model the table does not have,
   and a model whose entry has no Bluetooth tier. *)
Definition odd_chipset : BuildBluetooth :=
  build "MacBookPro8,1" (Some "CSR8510 A10") None false.

(* A machine with a third-party card, and the table with the generation of
   one entry dropped. *)
Definition third_party : BuildBluetooth :=
  build "MacPro5,1" (Some "3rd Party Bluetooth 4.0 Hub") None false.
Definition table_without_generation : gmap string SmbiosEntry :=
  <["MacBookPro8,1" := mkSmbiosEntry None (Some 4)]> table.
Definition data_without_generation : Datasets :=
  mkDatasets table_without_generation 6 5 4.

End Sample.

(* ===================================================================== *)
(** ** The monad: actions compose, the document does not steer             *)
(* ===================================================================== *)

Lemma apply_actions_app (xs ys : list PatchAction) (cfg : Config) :
  apply_actions (xs ++ ys) cfg = apply_actions ys (apply_actions xs cfg).
Proof. unfold apply_actions. apply fold_left_app. Qed.

Lemma oblivious_ret {A : Type} (a : A) : config_oblivious (mret a).
Proof. exists [], (inr a). reflexivity. Qed.

Lemma oblivious_raise {A : Type} (e : PyError) : config_oblivious (@raise A e).
Proof. exists [], (inl e). reflexivity. Qed.

Lemma oblivious_emit (a : PatchAction) : config_oblivious (emit a).
Proof. exists [a], (inr ()). reflexivity. Qed.

Lemma oblivious_bind {A B : Type} (m : M A) (k : A -> M B) :
  config_oblivious m -> (forall a, config_oblivious (k a)) ->
  config_oblivious (m ≫= k).
Proof.
  intros (acts & v & Hm) Hk. destruct v as [e | a].
  - exists acts, (inl e). intros cfg.
    unfold mbind, M_bind. rewrite Hm. reflexivity.
  - destruct (Hk a) as (acts' & v' & Hka).
    exists (acts ++ acts'), v'. intros cfg.
    unfold mbind, M_bind. rewrite Hm. cbn. rewrite Hka. cbn.
    by rewrite apply_actions_app.
Qed.

Create HintDb oblivious.
#[local] Hint Resolve oblivious_ret oblivious_raise oblivious_emit : oblivious.

Ltac oblivious_step :=
  match goal with
  | |- config_oblivious (_ ≫= _) => apply oblivious_bind; [ | intros ? ]
  | |- config_oblivious (if ?b then _ else _) => destruct b
  | |- config_oblivious (match ?x with _ => _ end) => destruct x
  | |- config_oblivious (enable_kext _ _ _) => apply oblivious_emit
  | |- config_oblivious _ => solve [ auto with oblivious ]
  end.

Lemma oblivious_nvram_add_unhexlify (key hexstr : string) :
  config_oblivious (nvram_add_unhexlify key hexstr).
Proof. unfold nvram_add_unhexlify. repeat oblivious_step. Qed.

Lemma oblivious_nvram_delete_extend (keys : list string) :
  config_oblivious (nvram_delete_extend keys).
Proof.
  induction keys as [ | key rest IH]; cbn [nvram_delete_extend].
  - auto with oblivious.
  - apply oblivious_bind; [ auto with oblivious | intros _; exact IH ].
Qed.

Lemma oblivious_get_CPU_Generation (entry : SmbiosEntry) :
  config_oblivious (get_CPU_Generation entry).
Proof. unfold get_CPU_Generation. repeat oblivious_step. Qed.

#[local] Hint Resolve oblivious_nvram_add_unhexlify
  oblivious_nvram_delete_extend oblivious_get_CPU_Generation : oblivious.

Lemma oblivious_workaround :
  config_oblivious _bluetooth_firmware_incompatibility_workaround.
Proof.
  unfold _bluetooth_firmware_incompatibility_workaround.
  repeat oblivious_step.
Qed.

#[local] Hint Resolve oblivious_workaround : oblivious.

Lemma oblivious_on_model (D : Datasets) (self : BuildBluetooth) :
  config_oblivious (_on_model D self).
Proof. unfold _on_model. repeat oblivious_step. Qed.

Lemma oblivious_prebuilt_assumption (D : Datasets) (self : BuildBluetooth) :
  config_oblivious (_prebuilt_assumption D self).
Proof. unfold _prebuilt_assumption. repeat oblivious_step. Qed.


(** What obliviousness gives for two runs. *)
Lemma oblivious_runs {A : Type} (m : M A) :
  config_oblivious m ->
  forall cfg1 cfg2,
    trace (m cfg1) = trace (m cfg2) /\
    value (m cfg1) = value (m cfg2) /\
    final (m cfg1) = apply_actions (trace (m cfg1)) cfg1.
Proof.
  intros (acts & v & Hm) cfg1 cfg2. by rewrite !Hm.
Qed.

(** The source's [boot-args += " -btlfxallowanyaddr"], read off the action. *)
Lemma allow_any_address_appends (cfg : Config) :
  boot_args (apply_action AllowAnyAddress cfg)
  = boot_args cfg +:+ " -btlfxallowanyaddr".
Proof. reflexivity. Qed.

(** The two literals of the workaround, decoded. *)
Lemma unhexlify_literals :
  unhexlify "0000000000000000000000000000" = Some (zero_bytes 14) /\
  unhexlify "00" = Some (zero_bytes 1).
Proof. split; reflexivity. Qed.

(* ===================================================================== *)
(** ** What each branch performs                                           *)
(* ===================================================================== *)

Lemma mret_bind {A B : Type} (a : A) (k : A -> M B) (cfg : Config) :
  (mret a ≫= k) cfg = k a cfg.
Proof. unfold mbind, M_bind, mret, M_ret. cbn. by destruct (k a cfg). Qed.

Lemma performed_seq (m k : M ()) (xs ys : list PatchAction) :
  (forall cfg, m cfg = performed xs cfg) ->
  (forall cfg, k cfg = performed ys cfg) ->
  forall cfg, (m ;; k) cfg = performed (xs ++ ys) cfg.
Proof.
  intros Hm Hk cfg. unfold mbind, M_bind. rewrite Hm. cbn. rewrite Hk.
  unfold performed. cbn. by rewrite apply_actions_app.
Qed.

Lemma run_workaround (cfg : Config) :
  _bluetooth_firmware_incompatibility_workaround cfg
  = performed workaround_actions cfg.
Proof. reflexivity. Qed.

Lemma run_on_model_legacy (D : Datasets) (self : BuildBluetooth) (cfg : Config) :
  bluetooth_chipset (self_computer self) = Some "BRCM2070 Hub" \/
  bluetooth_chipset (self_computer self) = Some "BRCM2046 Hub" ->
  _on_model D self cfg
  = performed ([ PrimaryBluetoothFixup (constants self);
                 BluetoothAddressSpoof (constants self);
                 AllowAnyAddress ] ++ workaround_actions) cfg.
Proof.
  intros [H | H]; unfold _on_model; rewrite H; reflexivity.
Qed.

Lemma run_on_model_third_party (D : Datasets) (self : BuildBluetooth) (cfg : Config) :
  bluetooth_chipset (self_computer self) = Some "3rd Party Bluetooth 4.0 Hub" \/
  bluetooth_chipset (self_computer self) = Some "Generic" ->
  _on_model D self cfg
  = performed [ PrimaryBluetoothFixup (constants self);
                SetQuirkFlag "ExtendBTFeatureFlags" true ] cfg.
Proof.
  intros [H | H]; unfold _on_model; rewrite H; reflexivity.
Qed.

Lemma run_on_model_unknown (D : Datasets) (self : BuildBluetooth) (cfg : Config) :
  bluetooth_chipset (self_computer self) ∉ Some <$> known_tags ->
  _on_model D self cfg = performed [] cfg.
Proof.
  intros H. unfold _on_model.
  change (Some <$> known_tags) with
    [ Some "BRCM2070 Hub"; Some "BRCM2046 Hub"; Some "BRCM20702 Hub";
      Some "3rd Party Bluetooth 4.0 Hub"; Some "Generic" ] in H.
  rewrite !not_elem_of_cons in H.
  destruct H as (H1 & H2 & H3 & H4 & H5 & _).
  rewrite !bool_decide_eq_false_2;
    [ reflexivity | | assumption | ];
    rewrite !not_elem_of_cons; repeat split; auto using not_elem_of_nil.
Qed.

Lemma run_on_model_transitional (D : Datasets) (self : BuildBluetooth) (cfg : Config) :
  bluetooth_chipset (self_computer self) = Some "BRCM20702 Hub" ->
  records_CPU_Generation D (model self) ->
  _on_model D self cfg = performed (wifi_part self ++ generation_part D self) cfg.
Proof.
  intros H Hwf. unfold _on_model. rewrite H.
  change (bool_decide (Some "BRCM20702 Hub" ∈ _)) with false.
  change (bool_decide (Some "BRCM20702 Hub" = _)) with true.
  cbv iota. revert cfg. apply performed_seq; intros cfg.
  - unfold wifi_part, wifi_is_4360.
    destruct (wifi (self_computer self)) as [card | ];
      [ destruct (bool_decide (chipset card = AirPortBrcm4360)) | ];
      reflexivity.
  - unfold generation_part, older_than_ivy_bridge.
    destruct (smbios_dictionary D !! model self) as [entry | ] eqn:Hlk;
      [ | reflexivity ].
    destruct (Hwf entry Hlk) as [gen Hgen].
    unfold get_CPU_Generation. rewrite Hgen, mret_bind.
    destruct (gen <? ivy_bridge D); reflexivity.
Qed.

(** The table entry of the model lacks its CPU generation: the lookup
    raises after the first condition has been acted on. *)
Lemma run_on_model_transitional_KeyError
      (D : Datasets) (self : BuildBluetooth) (cfg : Config) (entry : SmbiosEntry) :
  bluetooth_chipset (self_computer self) = Some "BRCM20702 Hub" ->
  smbios_dictionary D !! model self = Some entry ->
  CPU_Generation entry = None ->
  _on_model D self cfg
  = mkOutcome (wifi_part self) (apply_actions (wifi_part self) cfg)
              (inl (KeyError "CPU Generation")).
Proof.
  intros H Hlk Hgen. unfold _on_model. rewrite H, Hlk.
  unfold wifi_part, wifi_is_4360, get_CPU_Generation. rewrite Hgen.
  destruct (wifi (self_computer self)) as [card | ];
    [ destruct (bool_decide (chipset card = AirPortBrcm4360)) | ];
    reflexivity.
Qed.

Lemma run_prebuilt_no_entry (D : Datasets) (self : BuildBluetooth) (cfg : Config) :
  smbios_dictionary D !! model self = None ->
  _prebuilt_assumption D self cfg = performed [] cfg.
Proof. intros H. unfold _prebuilt_assumption. by rewrite H. Qed.

Lemma run_prebuilt_no_tier
      (D : Datasets) (self : BuildBluetooth) (cfg : Config) (entry : SmbiosEntry) :
  smbios_dictionary D !! model self = Some entry ->
  Bluetooth_Model entry = None ->
  _prebuilt_assumption D self cfg = performed [] cfg.
Proof. intros H Ht. unfold _prebuilt_assumption. by rewrite H, Ht. Qed.

Lemma run_prebuilt_tier
      (D : Datasets) (self : BuildBluetooth) (cfg : Config)
      (entry : SmbiosEntry) (tier : Z) :
  smbios_dictionary D !! model self = Some entry ->
  Bluetooth_Model entry = Some tier ->
  _prebuilt_assumption D self cfg
  = performed
      (if tier <=? BRCM20702_v1 D then
         PrimaryBluetoothFixup (constants self)
         :: (if tier <=? BRCM2070 D then extended_sequence (constants self) else [])
       else []) cfg.
Proof.
  intros H Ht. unfold _prebuilt_assumption. rewrite H, Ht.
  destruct (tier <=? BRCM20702_v1 D); [ | reflexivity ].
  destruct (tier <=? BRCM2070 D); reflexivity.
Qed.


Lemma trace_prebuilt_with_tier
      (D : Datasets) (self : BuildBluetooth) (cfg : Config)
      (gen : option Z) (tier : Z) :
  trace (_prebuilt_assumption (with_tier D (model self) gen tier) self cfg)
  = if tier <=? BRCM20702_v1 D then
      PrimaryBluetoothFixup (constants self)
      :: (if tier <=? BRCM2070 D then extended_sequence (constants self) else [])
    else [].
Proof.
  rewrite (run_prebuilt_tier _ _ _ (mkSmbiosEntry gen (Some tier)) tier);
    [ reflexivity | apply lookup_insert_eq | reflexivity ].
Qed.

Lemma extended_sequence_length (c : Constants) :
  length (extended_sequence c) = 6%nat.
Proof. reflexivity. Qed.

Lemma contiguous_in_length (block acts : list PatchAction) :
  contiguous_in block acts -> (length block <= length acts)%nat.
Proof.
  intros (pre & post & ->). rewrite !length_app. lia.
Qed.

(* ===================================================================== *)
(** ** The claims                                                          *)
(* ===================================================================== *)

(** C1.  For the BRCM20702 Hub chipset, [_on_model] evaluates two
    independent conditions.  A companion wireless card of the 4360 class
    enables BlueToolFixup whatever the CPU generation; a table entry with a
    CPU generation strictly below Ivy Bridge enables BlueToolFixup and runs
    the firmware workaround whatever the wireless card.  When both hold
    BlueToolFixup is enabled twice; when neither holds nothing is done. *)
Theorem C1_transitional_hub_conditions
        (D : Datasets) (self : BuildBluetooth) (cfg : Config) :
  bluetooth_chipset (self_computer self) = Some "BRCM20702 Hub" ->
  records_CPU_Generation D (model self) ->
  let fixup := PrimaryBluetoothFixup (constants self) in
  let out := _on_model D self cfg in
  value out = inr () /\
  trace out
  = (if wifi_is_4360 (self_computer self) then [fixup] else [])
    ++ (if older_than_ivy_bridge D (model self)
        then fixup :: workaround_actions else []) /\
  (wifi_is_4360 (self_computer self) = true ->
   older_than_ivy_bridge D (model self) = true ->
   trace out = fixup :: fixup :: workaround_actions) /\
  (wifi_is_4360 (self_computer self) = false ->
   older_than_ivy_bridge D (model self) = false ->
   trace out = []).
Proof.
  intros H Hwf fixup out. subst out.
  rewrite (run_on_model_transitional D self cfg H Hwf).
  unfold wifi_part, generation_part. cbn [performed trace value].
  repeat split.
  - intros -> ->. reflexivity.
  - intros -> ->. reflexivity.
Qed.

Lemma C1_transitional_hub_conditions_witness :
  trace (_on_model Sample.data Sample.upgraded_2011 Sample.blank)
  = PrimaryBluetoothFixup (constants Sample.upgraded_2011)
    :: PrimaryBluetoothFixup (constants Sample.upgraded_2011)
    :: workaround_actions.
Proof.
  apply (C1_transitional_hub_conditions
           Sample.data Sample.upgraded_2011 Sample.blank).
  - reflexivity.
  - intros entry Hentry. vm_compute in Hentry.
    injection Hentry as <-. by eexists.
  - reflexivity.
  - reflexivity.
Defined.

(** C2.  For every table, model, wireless card and document, [_on_model]
    with chipset BRCM2070 Hub and with chipset BRCM2046 Hub performs the same
    seven actions: BlueToolFixup, Bluetooth-Spoof, the boot argument
    -btlfxallowanyaddr, then the four actions of the firmware workaround (two
    variables set, two marked for deletion). *)
Theorem C2_legacy_hubs_same_sequence
        (D : Datasets) (self : BuildBluetooth) (cfg : Config) :
  let c := constants self in
  let expected :=
    [ PrimaryBluetoothFixup c;
      BluetoothAddressSpoof c;
      SetBootArgument "-btlfxallowanyaddr";
      SetFirmwareVariable "bluetoothInternalControllerInfo" (zero_bytes 14);
      SetFirmwareVariable "bluetoothExternalDongleFailed" (zero_bytes 1);
      DeleteFirmwareVariable "bluetoothInternalControllerInfo";
      DeleteFirmwareVariable "bluetoothExternalDongleFailed" ] in
  _on_model D (with_chipset "BRCM2070 Hub" self) cfg = performed expected cfg /\
  _on_model D (with_chipset "BRCM2046 Hub" self) cfg = performed expected cfg /\
  length expected = 7%nat.
Proof.
  intros c expected. split; [ | split ].
  - rewrite run_on_model_legacy; [ reflexivity | by left ].
  - rewrite run_on_model_legacy; [ reflexivity | by right ].
  - reflexivity.
Qed.

(** C3.  For a model whose table entry has a Bluetooth tier,
    [_prebuilt_assumption] enables BlueToolFixup when the tier is at most
    BRCM20702_v1; when the tier is moreover at most BRCM2070 it goes on with
    the boot argument -btlfxallowanyaddr, the four actions of the firmware
    workaround and last Bluetooth-Spoof, seven actions in all; for a tier
    above BRCM20702_v1 it does nothing. *)
Theorem C3_fallback_by_tier
        (D : Datasets) (self : BuildBluetooth) (cfg : Config)
        (entry : SmbiosEntry) (tier : Z) :
  smbios_dictionary D !! model self = Some entry ->
  Bluetooth_Model entry = Some tier ->
  let c := constants self in
  let out := _prebuilt_assumption D self cfg in
  value out = inr () /\
  (tier <= BRCM20702_v1 D -> BRCM2070 D < tier ->
   trace out = [PrimaryBluetoothFixup c]) /\
  (tier <= BRCM20702_v1 D -> tier <= BRCM2070 D ->
   trace out
   = [PrimaryBluetoothFixup c; SetBootArgument "-btlfxallowanyaddr"]
     ++ workaround_actions ++ [BluetoothAddressSpoof c]
   /\ length (trace out) = 7%nat) /\
  (BRCM20702_v1 D < tier -> trace out = []).
Proof.
  intros Hlk Htier c out. subst out.
  rewrite (run_prebuilt_tier D self cfg entry tier Hlk Htier).
  cbn [performed trace value].
  destruct (Z.leb_spec tier (BRCM20702_v1 D));
    destruct (Z.leb_spec tier (BRCM2070 D));
    repeat split; intros; try lia; reflexivity.
Qed.

Lemma C3_fallback_by_tier_witness :
  trace (_prebuilt_assumption Sample.data Sample.undetected Sample.blank)
  = [ PrimaryBluetoothFixup (constants Sample.undetected);
      SetBootArgument "-btlfxallowanyaddr" ]
    ++ workaround_actions ++ [BluetoothAddressSpoof (constants Sample.undetected)]
  /\ length (trace (_prebuilt_assumption Sample.data Sample.undetected Sample.blank))
     = 7%nat.
Proof.
  apply (C3_fallback_by_tier Sample.data Sample.undetected Sample.blank
                             (mkSmbiosEntry (Some 5) (Some 4)) 4).
  - reflexivity.
  - reflexivity.
  - cbn. lia.
  - cbn. lia.
Defined.

(** C4, as the specification words it, fails: the value the code assigns to
    bluetoothInternalControllerInfo is not fifteen zero bytes. *)
Lemma C4_fifteen_zero_bytes_refuted :
  trace (_bluetooth_firmware_incompatibility_workaround Sample.blank)
  <> workaround_as_specified.
Proof.
  rewrite run_workaround. cbn [performed trace].
  intros Heq. apply (f_equal head) in Heq. cbn in Heq.
  injection Heq as Heq. apply (f_equal length) in Heq. discriminate Heq.
Qed.

(** C4 (amended).  The firmware workaround sets the variable
    bluetoothInternalControllerInfo to exactly 14 zero bytes (the 28
    hexadecimal digits of the literal) and bluetoothExternalDongleFailed to
    exactly 1 zero byte, and then marks both keys for deletion, in that
    order. *)
Theorem C4_workaround_sets_then_deletes (cfg : Config) :
  let out := _bluetooth_firmware_incompatibility_workaround cfg in
  value out = inr () /\
  trace out
  = [ SetFirmwareVariable "bluetoothInternalControllerInfo" (zero_bytes 14);
      SetFirmwareVariable "bluetoothExternalDongleFailed" (zero_bytes 1);
      DeleteFirmwareVariable "bluetoothInternalControllerInfo";
      DeleteFirmwareVariable "bluetoothExternalDongleFailed" ] /\
  nvram_add (final out) !! "bluetoothInternalControllerInfo" = Some (zero_bytes 14) /\
  nvram_add (final out) !! "bluetoothExternalDongleFailed" = Some (zero_bytes 1) /\
  nvram_delete (final out)
  = nvram_delete cfg ++ ["bluetoothInternalControllerInfo"; "bluetoothExternalDongleFailed"].
Proof.
  intros out. subst out. rewrite run_workaround.
  cbn [performed trace value final].
  repeat split.
  - cbn. rewrite lookup_insert_ne by done. apply lookup_insert_eq.
  - cbn. apply lookup_insert_eq.
  - cbn. by rewrite <- app_assoc.
Qed.

Lemma truthy_detected (c : Computer) : truthy (bluetooth_chipset c) = true <-> detected c.
Proof.
  unfold truthy, detected. destruct (bluetooth_chipset c) as [tag | ].
  - rewrite negb_true_iff. split.
    + intros H. exists tag. split; [ done | ].
      intros ->. discriminate H.
    + intros (tag' & [= <-] & Hne).
      destruct (String.eqb_spec tag ""); [ done | reflexivity ].
  - split; [ discriminate | ]. by intros (tag' & [=] & _).
Qed.

(** C5.  [_build] hands over to [_on_model] exactly when the custom-model
    override is off and a Bluetooth chipset was detected; in every other
    case (override on, or no chipset detected) it hands over to
    [_prebuilt_assumption], which works from the model identifier.  The two
    conditions exclude each other and leave no case out, so one and only one
    of the two methods runs. *)
Theorem C5_build_delegation (D : Datasets) (self : BuildBluetooth) :
  (custom_model (constants self) = false /\ detected (self_computer self) ->
   _build D self = _on_model D self) /\
  (custom_model (constants self) = true \/ ~ detected (self_computer self) ->
   _build D self = _prebuilt_assumption D self) /\
  ((custom_model (constants self) = false /\ detected (self_computer self)) \/
   (custom_model (constants self) = true \/ ~ detected (self_computer self))) /\
  ~ ((custom_model (constants self) = false /\ detected (self_computer self)) /\
     (custom_model (constants self) = true \/ ~ detected (self_computer self))).
Proof.
  unfold _build. rewrite <- truthy_detected.
  destruct (custom_model (constants self));
    destruct (truthy (bluetooth_chipset (self_computer self)));
    cbn; intuition congruence.
Qed.

Lemma C5_build_delegation_witness :
  _build Sample.data Sample.stock_2070
  = _on_model Sample.data Sample.stock_2070 /\
  _build Sample.data Sample.stock_2070_custom
  = _prebuilt_assumption Sample.data Sample.stock_2070_custom /\
  _build Sample.data Sample.undetected
  = _prebuilt_assumption Sample.data Sample.undetected.
Proof.
  split; [ | split ].
  - apply (C5_build_delegation Sample.data Sample.stock_2070).
    split; [ reflexivity | ]. by exists "BRCM2070 Hub".
  - apply (C5_build_delegation Sample.data Sample.stock_2070_custom). by left.
  - apply (C5_build_delegation Sample.data Sample.undetected). right.
    by intros (tag & [=] & _).
Defined.

(** C6.  [_prebuilt_assumption] is monotone in the Bluetooth tier: for two
    tiers A < B of the same model, all else equal, if tier B has
    BlueToolFixup enabled then so has tier A, and if tier B gets the extended
    sequence (boot argument, firmware workaround, Bluetooth-Spoof) then so
    does tier A. *)
Theorem C6_fallback_monotone_in_tier
        (D : Datasets) (self : BuildBluetooth) (cfg : Config)
        (gen : option Z) (A B : Z) :
  A < B ->
  let run tier :=
    trace (_prebuilt_assumption (with_tier D (model self) gen tier) self cfg) in
  (PrimaryBluetoothFixup (constants self) ∈ run B ->
   PrimaryBluetoothFixup (constants self) ∈ run A) /\
  (contiguous_in (extended_sequence (constants self)) (run B) ->
   contiguous_in (extended_sequence (constants self)) (run A)).
Proof.
  intros HAB run. subst run. cbv beta.
  rewrite !trace_prebuilt_with_tier.
  destruct (Z.leb_spec B (BRCM20702_v1 D)) as [HB1 | HB1].
  - rewrite (proj2 (Z.leb_le A (BRCM20702_v1 D))) by lia. split.
    + intros _. apply list_elem_of_here.
    + destruct (Z.leb_spec B (BRCM2070 D)) as [HB2 | HB2].
      * rewrite (proj2 (Z.leb_le A (BRCM2070 D))) by lia. done.
      * intros Hin%contiguous_in_length.
        rewrite extended_sequence_length in Hin. cbn in Hin. lia.
  - split.
    + intros Hin. by apply elem_of_nil in Hin.
    + intros Hin%contiguous_in_length.
      rewrite extended_sequence_length in Hin. cbn in Hin. lia.
Qed.

Lemma C6_fallback_monotone_in_tier_witness :
  3 < 4 /\
  PrimaryBluetoothFixup (constants Sample.undetected)
  ∈ trace (_prebuilt_assumption
             (with_tier Sample.data "MacBookPro8,1" (Some 5) 3)
             Sample.undetected Sample.blank) /\
  contiguous_in
    (extended_sequence (constants Sample.undetected))
    (trace (_prebuilt_assumption
              (with_tier Sample.data "MacBookPro8,1" (Some 5) 3)
              Sample.undetected Sample.blank)).
Proof.
  assert (Hlt : 3 < 4) by lia.
  pose proof (C6_fallback_monotone_in_tier
                Sample.data Sample.undetected Sample.blank (Some 5) 3 4 Hlt)
    as [Hbase Hext].
  split; [ exact Hlt | split ].
  - apply Hbase.
    rewrite (trace_prebuilt_with_tier Sample.data Sample.undetected).
    apply list_elem_of_here.
  - apply Hext.
    rewrite (trace_prebuilt_with_tier Sample.data Sample.undetected).
    by exists [PrimaryBluetoothFixup (constants Sample.undetected)], [].
Defined.





Ltac firmware_free_list := unfold firmware_free; repeat constructor.

Lemma firmware_free_wifi_part (self : BuildBluetooth) :
  firmware_free (wifi_part self).
Proof.
  unfold wifi_part. destruct (wifi_is_4360 _); firmware_free_list.
Qed.

Lemma well_placed_on_model (D : Datasets) (self : BuildBluetooth) (cfg : Config) :
  workaround_well_placed (constants self) (trace (_on_model D self cfg)).
Proof.
  set (c := constants self).
  destruct (decide (bluetooth_chipset (self_computer self) = Some "BRCM20702 Hub"))
    as [H | H].
  - destruct (smbios_dictionary D !! model self) as [entry | ] eqn:Hlk.
    + destruct (CPU_Generation entry) as [gen | ] eqn:Hgen.
      * rewrite run_on_model_transitional; [ | done | ].
        2:{ intros entry' Hentry'. rewrite Hlk in Hentry'.
            injection Hentry' as <-. by eexists. }
        cbn [performed trace]. unfold generation_part, older_than_ivy_bridge.
        rewrite Hlk, Hgen. destruct (gen <? ivy_bridge D).
        -- right. exists (wifi_part self ++ [PrimaryBluetoothFixup c]), [].
           split; [ by rewrite <- app_assoc | ].
           split; [ apply elem_of_app; right; apply list_elem_of_here | ].
           split; [ | constructor ].
           apply Forall_app. split; [ apply firmware_free_wifi_part | ].
           firmware_free_list.
        -- left. rewrite app_nil_r. apply firmware_free_wifi_part.
      * rewrite (run_on_model_transitional_KeyError D self cfg entry) by done.
        left. apply firmware_free_wifi_part.
    + rewrite run_on_model_transitional; [ | done | ].
      2:{ intros entry' Hentry'. by rewrite Hlk in Hentry'. }
      cbn [performed trace]. unfold generation_part, older_than_ivy_bridge.
      rewrite Hlk, app_nil_r. left. apply firmware_free_wifi_part.
  - unfold _on_model. rewrite (bool_decide_eq_false_2 _ H).
    destruct (bool_decide (_ ∈ [Some "BRCM2070 Hub"; _])).
    + right.
      exists [PrimaryBluetoothFixup c; BluetoothAddressSpoof c; AllowAnyAddress], [].
      split; [ reflexivity | ].
      split; [ apply list_elem_of_here | ].
      split; firmware_free_list.
    + left. destruct (bool_decide _); firmware_free_list.
Qed.

Lemma well_placed_prebuilt_assumption
      (D : Datasets) (self : BuildBluetooth) (cfg : Config) :
  workaround_well_placed (constants self)
                         (trace (_prebuilt_assumption D self cfg)).
Proof.
  set (c := constants self).
  destruct (smbios_dictionary D !! model self) as [entry | ] eqn:Hlk.
  - destruct (Bluetooth_Model entry) as [tier | ] eqn:Ht.
    + rewrite (run_prebuilt_tier D self cfg entry tier) by done.
      cbn [performed trace].
      destruct (tier <=? BRCM20702_v1 D); [ | left; constructor ].
      destruct (tier <=? BRCM2070 D).
      * right.
        exists [PrimaryBluetoothFixup c; AllowAnyAddress], [BluetoothAddressSpoof c].
        split; [ reflexivity | ].
        split; [ apply list_elem_of_here | ].
        split; firmware_free_list.
      * left. firmware_free_list.
    + rewrite (run_prebuilt_no_tier D self cfg entry) by done.
      left. constructor.
  - rewrite run_prebuilt_no_entry by done. left. constructor.
Qed.

(** C8.  In every result of either evaluator the firmware-variable actions
    occur only as one contiguous block of exactly four actions, two
    variables set and then two marked for deletion, and wherever that block
    occurs a BlueToolFixup enabling comes before it in the same result. *)
Theorem C8_workaround_block_placement
        (D : Datasets) (self : BuildBluetooth) (cfg : Config) :
  workaround_well_placed (constants self) (trace (_on_model D self cfg)) /\
  workaround_well_placed (constants self) (trace (_prebuilt_assumption D self cfg)) /\
  workaround_well_placed (constants self) (trace (_build D self cfg)) /\
  (exists k1 b1 k2 b2 k3 k4,
     workaround_actions
     = [ SetFirmwareVariable k1 b1; SetFirmwareVariable k2 b2;
         DeleteFirmwareVariable k3; DeleteFirmwareVariable k4 ]) /\
  length workaround_actions = 4%nat.
Proof.
  split; [ apply well_placed_on_model | ].
  split; [ apply well_placed_prebuilt_assumption | ].
  split.
  - unfold _build. destruct (_ && _);
      [ apply well_placed_on_model | apply well_placed_prebuilt_assumption ].
  - split; [ | reflexivity ]. by repeat eexists.
Qed.




(** C10.  The BRCM2070/BRCM2046 branch of [_on_model] and the oldest-tier
    branch of [_prebuilt_assumption] perform the same seven actions in
    different orders: [_on_model] enables Bluetooth-Spoof second, right after
    BlueToolFixup and before the boot argument and the workaround block;
    [_prebuilt_assumption] enables it last, after the boot argument and the
    workaround block. *)
Theorem C10_live_and_fallback_orders
        (D : Datasets) (self : BuildBluetooth) (cfg cfg' : Config)
        (entry : SmbiosEntry) (tier : Z) :
  bluetooth_chipset (self_computer self) = Some "BRCM2070 Hub" \/
  bluetooth_chipset (self_computer self) = Some "BRCM2046 Hub" ->
  smbios_dictionary D !! model self = Some entry ->
  Bluetooth_Model entry = Some tier ->
  tier <= BRCM20702_v1 D ->
  tier <= BRCM2070 D ->
  let c := constants self in
  let live := trace (_on_model D self cfg) in
  let fallback := trace (_prebuilt_assumption D self cfg') in
  live = [PrimaryBluetoothFixup c; BluetoothAddressSpoof c; AllowAnyAddress]
         ++ workaround_actions /\
  fallback = [PrimaryBluetoothFixup c; AllowAnyAddress]
             ++ workaround_actions ++ [BluetoothAddressSpoof c] /\
  Permutation live fallback /\
  length live = 7%nat /\
  live <> fallback /\
  live !! 1%nat = Some (BluetoothAddressSpoof c) /\
  last fallback = Some (BluetoothAddressSpoof c).
Proof.
  intros Hchip Hlk Ht H1 H2 c live fallback. subst live fallback.
  rewrite (run_on_model_legacy D self cfg Hchip).
  rewrite (run_prebuilt_tier D self cfg' entry tier Hlk Ht).
  rewrite (proj2 (Z.leb_le _ _) H1), (proj2 (Z.leb_le _ _) H2).
  cbn [performed trace].
  split; [ reflexivity | ]. split; [ reflexivity | ].
  split; [ | split; [ reflexivity | split; [ | split; reflexivity ] ] ].
  - apply perm_skip.
    apply (Permutation_cons_append (AllowAnyAddress :: workaround_actions)).
  - intros Heq. apply (f_equal (fun l => l !! 1%nat)) in Heq. discriminate Heq.
Qed.

Lemma C10_live_and_fallback_orders_witness :
  Permutation (trace (_on_model Sample.data Sample.stock_2046 Sample.blank))
              (trace (_prebuilt_assumption Sample.data Sample.stock_2046 Sample.blank)) /\
  trace (_on_model Sample.data Sample.stock_2046 Sample.blank)
  <> trace (_prebuilt_assumption Sample.data Sample.stock_2046 Sample.blank).
Proof.
  assert (H1 : 4 <= 5) by lia. assert (H2 : 4 <= 4) by lia.
  destruct (C10_live_and_fallback_orders
              Sample.data Sample.stock_2046 Sample.blank Sample.blank
              (mkSmbiosEntry (Some 5) (Some 4)) 4
              (or_intror eq_refl) eq_refl eq_refl H1 H2)
    as (_ & _ & Hperm & _ & Hne & _).
  split; assumption.
Defined.

(* ===================================================================== *)
(** ** The document, section by section                                    *)
(* ===================================================================== *)

Lemma string_app_assoc (s1 s2 s3 : string) :
  (s1 +:+ s2) +:+ s3 = s1 +:+ (s2 +:+ s3).
Proof.
  induction s1 as [ | a s1 IH]; [ reflexivity | ].
  change (String a ((s1 +:+ s2) +:+ s3) = String a (s1 +:+ s2 +:+ s3)).
  by rewrite IH.
Qed.

Lemma string_app_nil_r (s : string) : s +:+ "" = s.
Proof.
  induction s as [ | a s IH]; [ reflexivity | ].
  change (String a (s +:+ "") = String a s). by rewrite IH.
Qed.

Lemma apply_actions_cons (a : PatchAction) (acts : list PatchAction) (cfg : Config) :
  apply_actions (a :: acts) cfg = apply_actions acts (apply_action a cfg).
Proof. reflexivity. Qed.

Lemma apply_actions_boot_args (acts : list PatchAction) (cfg : Config) :
  boot_args (apply_actions acts cfg) = boot_args cfg +:+ boot_suffix acts.
Proof.
  revert cfg. induction acts as [ | a acts IH]; intros cfg.
  - cbn. by rewrite string_app_nil_r.
  - rewrite apply_actions_cons, IH.
    destruct a; cbn [apply_action register_kext boot_args boot_suffix];
      try reflexivity.
    by rewrite !string_app_assoc.
Qed.



Lemma apply_actions_firmware_free (acts : list PatchAction) (cfg : Config) :
  firmware_free acts ->
  nvram_add (apply_actions acts cfg) = nvram_add cfg /\
  nvram_delete (apply_actions acts cfg) = nvram_delete cfg.
Proof.
  intros Hff. revert cfg.
  induction Hff as [ | a acts Ha _ IH]; intros cfg; [ done | ].
  rewrite apply_actions_cons.
  destruct (IH (apply_action a cfg)) as [-> ->].
  by destruct a.
Qed.

Lemma firmware_free_no_workaround (acts : list PatchAction) :
  firmware_free acts -> ~ contiguous_in workaround_actions acts.
Proof.
  intros Hff (pre & post & ->).
  apply Forall_app in Hff as [_ Hff]. apply Forall_app in Hff as [Hff _].
  apply Forall_cons in Hff as [Hset _]. discriminate Hset.
Qed.

(* ===================================================================== *)
(** ** The branches, all of them                                           *)
(* ===================================================================== *)

Lemma on_model_cases (D : Datasets) (self : BuildBluetooth) (cfg : Config) :
  let c := constants self in
  (is_legacy_hub (self_computer self) /\
   _on_model D self cfg
   = performed ([PrimaryBluetoothFixup c; BluetoothAddressSpoof c; AllowAnyAddress]
                ++ workaround_actions) cfg) \/
  (bluetooth_chipset (self_computer self) = Some "BRCM20702 Hub" /\
   records_CPU_Generation D (model self) /\
   _on_model D self cfg = performed (wifi_part self ++ generation_part D self) cfg) \/
  (bluetooth_chipset (self_computer self) = Some "BRCM20702 Hub" /\
   lacks_CPU_Generation D (model self) /\
   _on_model D self cfg
   = mkOutcome (wifi_part self) (apply_actions (wifi_part self) cfg)
               (inl (KeyError "CPU Generation"))) \/
  (is_third_party (self_computer self) /\
   _on_model D self cfg
   = performed [PrimaryBluetoothFixup c; SetQuirkFlag "ExtendBTFeatureFlags" true] cfg) \/
  ((bluetooth_chipset (self_computer self) ∉ Some <$> known_tags) /\
   _on_model D self cfg = performed [] cfg).
Proof.
  intros c.
  destruct (decide (bluetooth_chipset (self_computer self) = Some "BRCM2070 Hub"))
    as [H1 | H1].
  { left. split; [ by left | ]. apply run_on_model_legacy. by left. }
  destruct (decide (bluetooth_chipset (self_computer self) = Some "BRCM2046 Hub"))
    as [H2 | H2].
  { left. split; [ by right | ]. apply run_on_model_legacy. by right. }
  destruct (decide (bluetooth_chipset (self_computer self) = Some "BRCM20702 Hub"))
    as [H3 | H3].
  { right.
    destruct (smbios_dictionary D !! model self) as [entry | ] eqn:Hlk.
    - destruct (CPU_Generation entry) as [gen | ] eqn:Hgen.
      + left. split; [ done | ].
        assert (Hwf : records_CPU_Generation D (model self)).
        { intros entry' Hentry'. rewrite Hlk in Hentry'.
          injection Hentry' as <-. by eexists. }
        split; [ done | ]. by apply run_on_model_transitional.
      + right. left. split; [ done | ]. split; [ by exists entry | ].
        by apply (run_on_model_transitional_KeyError D self cfg entry).
    - left. split; [ done | ].
      assert (Hwf : records_CPU_Generation D (model self)).
      { intros entry' Hentry'. by rewrite Hlk in Hentry'. }
      split; [ done | ]. by apply run_on_model_transitional. }
  destruct (decide (bluetooth_chipset (self_computer self)
                    = Some "3rd Party Bluetooth 4.0 Hub")) as [H4 | H4].
  { do 3 right. left. split; [ by left | ]. apply run_on_model_third_party. by left. }
  destruct (decide (bluetooth_chipset (self_computer self) = Some "Generic"))
    as [H5 | H5].
  { do 3 right. left. split; [ by right | ]. apply run_on_model_third_party. by right. }
  do 4 right.
  assert (Hout : bluetooth_chipset (self_computer self) ∉ Some <$> known_tags).
  { change (Some <$> known_tags) with
      [ Some "BRCM2070 Hub"; Some "BRCM2046 Hub"; Some "BRCM20702 Hub";
        Some "3rd Party Bluetooth 4.0 Hub"; Some "Generic" ].
    rewrite !not_elem_of_cons. repeat split; auto using not_elem_of_nil. }
  split; [ done | ]. by apply run_on_model_unknown.
Qed.

Lemma prebuilt_cases (D : Datasets) (self : BuildBluetooth) (cfg : Config) :
  let c := constants self in
  (oldest_tier D (model self) /\
   _prebuilt_assumption D self cfg
   = performed (PrimaryBluetoothFixup c :: extended_sequence c) cfg) \/
  (~ oldest_tier D (model self) /\
   (_prebuilt_assumption D self cfg = performed [PrimaryBluetoothFixup c] cfg \/
    _prebuilt_assumption D self cfg = performed [] cfg)).
Proof.
  intros c.
  destruct (smbios_dictionary D !! model self) as [entry | ] eqn:Hlk.
  - destruct (Bluetooth_Model entry) as [tier | ] eqn:Ht.
    + rewrite (run_prebuilt_tier D self cfg entry tier Hlk Ht).
      destruct (Z.leb_spec tier (BRCM20702_v1 D)) as [H1 | H1];
        [ destruct (Z.leb_spec tier (BRCM2070 D)) as [H2 | H2] | ].
      * left. split; [ | done ]. by exists entry, tier.
      * right. split; [ | by left ].
        intros (entry' & tier' & Hlk' & Ht' & _ & H2').
        rewrite Hlk in Hlk'. injection Hlk' as <-.
        rewrite Ht in Ht'. injection Ht' as <-. lia.
      * right. split; [ | by right ].
        intros (entry' & tier' & Hlk' & Ht' & H1' & _).
        rewrite Hlk in Hlk'. injection Hlk' as <-.
        rewrite Ht in Ht'. injection Ht' as <-. lia.
    + right. split; [ | right; by apply (run_prebuilt_no_tier D self cfg entry) ].
      intros (entry' & tier' & Hlk' & Ht' & _).
      rewrite Hlk in Hlk'. injection Hlk' as <-. congruence.
  - right. split; [ | right; by apply run_prebuilt_no_entry ].
    intros (entry' & tier' & Hlk' & _). congruence.
Qed.

(* ===================================================================== *)
(** ** Further properties of the methods                                   *)
(* ===================================================================== *)

Ltac unfold_actions :=
  unfold extended_sequence, workaround_actions, workaround_with,
    AllowAnyAddress, BluetoothAddressSpoof, PrimaryBluetoothFixup in *.

Ltac membership :=
  unfold_actions; cbn [app] in *;
  rewrite ?elem_of_cons, ?elem_of_nil in *;
  intuition (try discriminate; try congruence).

(** X1.  The kernel quirk ExtendBTFeatureFlags belongs to the third-party
    branch alone.  With a third-party or generic chipset [_on_model] enables
    BlueToolFixup, sets the quirk to true, and leaves boot-args, the NVRAM
    sections and every other quirk as they were; with any other chipset, and
    in [_prebuilt_assumption] always, no quirk changes. *)
Theorem quirk_only_for_third_party
        (D : Datasets) (self : BuildBluetooth) (cfg : Config) :
  (is_third_party (self_computer self) ->
   let out := _on_model D self cfg in
   trace out = [ PrimaryBluetoothFixup (constants self);
                 SetQuirkFlag "ExtendBTFeatureFlags" true ] /\
   value out = inr () /\
   kernel_quirks (final out) = <["ExtendBTFeatureFlags" := true]> (kernel_quirks cfg) /\
   boot_args (final out) = boot_args cfg /\
   nvram_add (final out) = nvram_add cfg /\
   nvram_delete (final out) = nvram_delete cfg) /\
  (~ is_third_party (self_computer self) ->
   kernel_quirks (final (_on_model D self cfg)) = kernel_quirks cfg) /\
  kernel_quirks (final (_prebuilt_assumption D self cfg)) = kernel_quirks cfg.
Proof.
  split; [ | split ].
  - intros H out. subst out. by rewrite (run_on_model_third_party D self cfg H).
  - intros Hno.
    destruct (on_model_cases D self cfg)
      as [[_ ->] | [(_ & _ & ->) | [(_ & _ & ->) | [[H _] | [_ ->]]]]];
      try reflexivity; try done;
      unfold wifi_part, generation_part;
      destruct (wifi_is_4360 _); try destruct (older_than_ivy_bridge _ _);
      reflexivity.
  - destruct (prebuilt_cases D self cfg) as [[_ ->] | [_ [-> | ->]]]; reflexivity.
Qed.

Lemma quirk_only_for_third_party_witness :
  kernel_quirks (final (_on_model Sample.data Sample.third_party Sample.blank))
  = <["ExtendBTFeatureFlags" := true]> (kernel_quirks Sample.blank) /\
  kernel_quirks (final (_on_model Sample.data Sample.stock_2070 Sample.blank))
  = kernel_quirks Sample.blank.
Proof.
  split.
  - destruct (quirk_only_for_third_party
                Sample.data Sample.third_party Sample.blank) as (Hyes & _ & _).
    apply Hyes. by left.
  - destruct (quirk_only_for_third_party
                Sample.data Sample.stock_2070 Sample.blank) as (_ & Hno & _).
    apply Hno. intros [H | H]; discriminate H.
Defined.

(** X2.  [_on_model] raises in one situation only: the chipset is BRCM20702
    Hub and the model's table entry exists without its CPU generation.  The
    exception is then KeyError for "CPU Generation", and what the wireless
    card condition did before it stays done. *)
Theorem on_model_raises_iff (D : Datasets) (self : BuildBluetooth) (cfg : Config) :
  (value (_on_model D self cfg) <> inr () <->
   bluetooth_chipset (self_computer self) = Some "BRCM20702 Hub" /\
   lacks_CPU_Generation D (model self)) /\
  (value (_on_model D self cfg) <> inr () ->
   _on_model D self cfg
   = mkOutcome (wifi_part self) (apply_actions (wifi_part self) cfg)
               (inl (KeyError "CPU Generation"))).
Proof.
  assert (Hreturns :
            ~ (bluetooth_chipset (self_computer self) = Some "BRCM20702 Hub" /\
               lacks_CPU_Generation D (model self)) ->
            value (_on_model D self cfg) = inr ()).
  { intros Hno.
    destruct (on_model_cases D self cfg)
      as [[_ ->] | [(_ & _ & ->) | [(H & Hlacks & _) | [[_ ->] | [_ ->]]]]];
      try reflexivity.
    by destruct Hno. }
  assert (Hraises :
            bluetooth_chipset (self_computer self) = Some "BRCM20702 Hub" /\
            lacks_CPU_Generation D (model self) ->
            _on_model D self cfg
            = mkOutcome (wifi_part self) (apply_actions (wifi_part self) cfg)
                        (inl (KeyError "CPU Generation"))).
  { intros [H (entry & Hlk & Hgen)].
    by apply (run_on_model_transitional_KeyError D self cfg entry). }
  assert (Hdec : forall P : Prop, Decision P ->
            (~ P -> value (_on_model D self cfg) = inr ()) ->
            value (_on_model D self cfg) <> inr () -> P).
  { intros P HP Himp Hne. destruct (decide P); [ done | ]. by destruct Hne; auto. }
  assert (Hcond : Decision
            (bluetooth_chipset (self_computer self) = Some "BRCM20702 Hub" /\
             lacks_CPU_Generation D (model self))).
  { unfold lacks_CPU_Generation.
    destruct (decide (bluetooth_chipset (self_computer self) = Some "BRCM20702 Hub"))
      as [H | H]; [ | right; tauto ].
    destruct (smbios_dictionary D !! model self) as [entry | ];
      [ | right; by intros (_ & entry & Hlk & _) ].
    destruct (CPU_Generation entry) as [gen | ] eqn:Hgen.
    - right. intros (_ & entry' & [= <-] & Hnone). congruence.
    - left. split; [ done | ]. by exists entry. }
  split; [ split | ].
  - by apply Hdec.
  - intros Hyes. rewrite (Hraises Hyes). discriminate.
  - intros Hne. apply Hraises. by apply Hdec.
Qed.

Lemma on_model_raises_iff_witness :
  _on_model Sample.data_without_generation Sample.upgraded_2011 Sample.blank
  = mkOutcome [PrimaryBluetoothFixup (constants Sample.upgraded_2011)]
              (apply_actions [PrimaryBluetoothFixup (constants Sample.upgraded_2011)]
                             Sample.blank)
              (inl (KeyError "CPU Generation")).
Proof.
  destruct (on_model_raises_iff
              Sample.data_without_generation Sample.upgraded_2011 Sample.blank)
    as [Hiff Hout].
  apply Hout, Hiff.
  split; [ reflexivity | ].
  exists (mkSmbiosEntry None (Some 4)). split; reflexivity.
Defined.

Lemma starts_with_fixup_on_model (D : Datasets) (self : BuildBluetooth) (cfg : Config) :
  starts_with_fixup (constants self) (trace (_on_model D self cfg)) /\
  (length (trace (_on_model D self cfg)) <= 7)%nat.
Proof.
  destruct (on_model_cases D self cfg)
    as [[_ ->] | [(_ & _ & ->) | [(_ & _ & ->) | [[_ ->] | [_ ->]]]]];
    cbn [performed trace]; unfold starts_with_fixup, wifi_part, generation_part;
    try destruct (wifi_is_4360 _); try destruct (older_than_ivy_bridge _ _);
    (split; [ | cbn; lia ]); cbn [app]; eauto.
Qed.

Lemma starts_with_fixup_prebuilt (D : Datasets) (self : BuildBluetooth) (cfg : Config) :
  starts_with_fixup (constants self) (trace (_prebuilt_assumption D self cfg)) /\
  (length (trace (_prebuilt_assumption D self cfg)) <= 7)%nat.
Proof.
  destruct (prebuilt_cases D self cfg) as [[_ ->] | [_ [-> | ->]]];
    cbn [performed trace]; unfold starts_with_fixup;
    (split; [ | cbn; lia ]); eauto.
Qed.

(** X3.  Whatever a resolution does, it does BlueToolFixup first: the
    actions of [_on_model], of [_prebuilt_assumption] and of [_build] are
    either none or begin with enabling BlueToolFixup, and there are never
    more than seven of them. *)
Theorem fixup_comes_first (D : Datasets) (self : BuildBluetooth) (cfg : Config) :
  Forall (fun run : M () =>
            starts_with_fixup (constants self) (trace (run cfg)) /\
            (length (trace (run cfg)) <= 7)%nat)
         [_on_model D self; _prebuilt_assumption D self; _build D self].
Proof.
  repeat apply Forall_cons_2; [ | | | apply Forall_nil_2 ].
  - apply starts_with_fixup_on_model.
  - apply starts_with_fixup_prebuilt.
  - unfold _build. destruct (_ && _);
      [ apply starts_with_fixup_on_model | apply starts_with_fixup_prebuilt ].
Qed.

Lemma final_by_trace {A : Type} (run : M A) (cfg : Config) :
  config_oblivious run ->
  final (run cfg) = apply_actions (trace (run cfg)) cfg.
Proof. intros H. by destruct (oblivious_runs run H cfg cfg) as (_ & _ & ?). Qed.

Lemma coupling_on_model (D : Datasets) (self : BuildBluetooth) (cfg : Config) :
  let c := constants self in
  let acts := trace (_on_model D self cfg) in
  (AllowAnyAddress ∈ acts <-> is_legacy_hub (self_computer self)) /\
  (AllowAnyAddress ∈ acts <-> BluetoothAddressSpoof c ∈ acts) /\
  (AllowAnyAddress ∈ acts -> contiguous_in workaround_actions acts).
Proof.
  intros c acts. subst acts.
  destruct (on_model_cases D self cfg)
    as [[Hyes ->] | [(H & _ & ->) | [(H & _ & ->) | [[H ->] | [H ->]]]]];
    cbn [performed trace].
  - split; [ | split ].
    + split; [ done | ]. intros _. membership.
    + split; intros _; membership.
    + intros _.
      by exists [PrimaryBluetoothFixup c; BluetoothAddressSpoof c; AllowAnyAddress], [].
  - assert (Hno : ~ is_legacy_hub (self_computer self))
      by (intros [H' | H']; congruence).
    unfold wifi_part, generation_part.
    destruct (wifi_is_4360 _), (older_than_ivy_bridge _ _); membership.
  - assert (Hno : ~ is_legacy_hub (self_computer self))
      by (intros [H' | H']; congruence).
    unfold wifi_part. destruct (wifi_is_4360 _); membership.
  - assert (Hno : ~ is_legacy_hub (self_computer self))
      by (intros [H' | H']; destruct H; congruence).
    membership.
  - assert (Hno : ~ is_legacy_hub (self_computer self)).
    { intros [H' | H']; apply H; rewrite H'; apply list_elem_of_fmap_2;
        unfold known_tags; rewrite !elem_of_cons; tauto. }
    membership.
Qed.

Lemma coupling_prebuilt (D : Datasets) (self : BuildBluetooth) (cfg : Config) :
  let c := constants self in
  let acts := trace (_prebuilt_assumption D self cfg) in
  (AllowAnyAddress ∈ acts <-> oldest_tier D (model self)) /\
  (AllowAnyAddress ∈ acts <-> BluetoothAddressSpoof c ∈ acts) /\
  (AllowAnyAddress ∈ acts -> contiguous_in workaround_actions acts).
Proof.
  intros c acts. subst acts.
  destruct (prebuilt_cases D self cfg) as [[Hyes ->] | [Hno [-> | ->]]];
    cbn [performed trace].
  - split; [ | split ].
    + split; [ done | ]. intros _. membership.
    + split; intros _; membership.
    + intros _.
      by exists [PrimaryBluetoothFixup c; AllowAnyAddress], [BluetoothAddressSpoof c].
  - membership.
  - membership.
Qed.

(** X4.  The boot argument -btlfxallowanyaddr is added for the oldest
    hardware only and never on its own.  [_on_model] adds it exactly for the
    chipsets BRCM2070 Hub and BRCM2046 Hub, [_prebuilt_assumption] exactly
    for a model whose tier passes both comparisons; in either method the
    boot argument is among the actions exactly when Bluetooth-Spoof is, and
    then the firmware workaround block is among them too. *)
Theorem boot_argument_for_oldest_only
        (D : Datasets) (self : BuildBluetooth) (cfg : Config) :
  let c := constants self in
  let live := trace (_on_model D self cfg) in
  let fallback := trace (_prebuilt_assumption D self cfg) in
  (AllowAnyAddress ∈ live <-> is_legacy_hub (self_computer self)) /\
  (AllowAnyAddress ∈ fallback <-> oldest_tier D (model self)) /\
  (AllowAnyAddress ∈ live <-> BluetoothAddressSpoof c ∈ live) /\
  (AllowAnyAddress ∈ fallback <-> BluetoothAddressSpoof c ∈ fallback) /\
  (AllowAnyAddress ∈ live -> contiguous_in workaround_actions live) /\
  (AllowAnyAddress ∈ fallback -> contiguous_in workaround_actions fallback).
Proof.
  intros c live fallback.
  destruct (coupling_on_model D self cfg) as (L1 & L2 & L3).
  destruct (coupling_prebuilt D self cfg) as (F1 & F2 & F3).
  done.
Qed.

Lemma boot_argument_for_oldest_only_witness :
  AllowAnyAddress ∈ trace (_on_model Sample.data Sample.stock_2046 Sample.blank) /\
  BluetoothAddressSpoof (constants Sample.stock_2046)
  ∈ trace (_on_model Sample.data Sample.stock_2046 Sample.blank) /\
  contiguous_in workaround_actions
                (trace (_on_model Sample.data Sample.stock_2046 Sample.blank)).
Proof.
  destruct (boot_argument_for_oldest_only
              Sample.data Sample.stock_2046 Sample.blank)
    as (Hlive & _ & Hspoof & _ & Hblock & _).
  assert (Hin : AllowAnyAddress
                ∈ trace (_on_model Sample.data Sample.stock_2046 Sample.blank)).
  { apply Hlive. by right. }
  split; [ exact Hin | split ].
  - by apply Hspoof.
  - by apply Hblock.
Defined.

Lemma boot_args_follow_on_model (D : Datasets) (self : BuildBluetooth) :
  boot_args_follow_trace (_on_model D self).
Proof.
  intros cfg.
  rewrite (final_by_trace _ cfg (oblivious_on_model D self)), apply_actions_boot_args.
  destruct (on_model_cases D self cfg)
    as [[_ ->] | [(_ & _ & ->) | [(_ & _ & ->) | [[_ ->] | [_ ->]]]]];
    cbn [performed trace]; unfold wifi_part, generation_part;
    try destruct (wifi_is_4360 _); try destruct (older_than_ivy_bridge _ _);
    (split; [ intros Hin | intros Hout ]);
    try (cbn; by rewrite ?string_app_nil_r);
    exfalso; clear -Hin || clear -Hout; membership.
Qed.

Lemma boot_args_follow_prebuilt (D : Datasets) (self : BuildBluetooth) :
  boot_args_follow_trace (_prebuilt_assumption D self).
Proof.
  intros cfg.
  rewrite (final_by_trace _ cfg (oblivious_prebuilt_assumption D self)),
    apply_actions_boot_args.
  destruct (prebuilt_cases D self cfg) as [[_ ->] | [_ [-> | ->]]];
    cbn [performed trace];
    (split; [ intros Hin | intros Hout ]);
    try (cbn; by rewrite ?string_app_nil_r);
    exfalso; clear -Hin || clear -Hout; membership.
Qed.

(** X5.  What a resolution does to boot-args can be read off its actions:
    if the boot argument is among them, the final boot-args is the initial
    one followed by " -btlfxallowanyaddr", appended once; otherwise boot-args
    is unchanged.  The arguments already there are never rewritten, also
    when the run ends in an exception. *)
Theorem boot_args_appended_once (D : Datasets) (self : BuildBluetooth) :
  boot_args_follow_trace (_on_model D self) /\
  boot_args_follow_trace (_prebuilt_assumption D self) /\
  boot_args_follow_trace (_build D self).
Proof.
  split; [ apply boot_args_follow_on_model | ].
  split; [ apply boot_args_follow_prebuilt | ].
  unfold _build. destruct (_ && _);
    [ apply boot_args_follow_on_model | apply boot_args_follow_prebuilt ].
Qed.

Lemma boot_args_appended_once_witness :
  boot_args (final (_build Sample.data Sample.stock_2070 Sample.blank))
  = "-v keepsyms=1 -btlfxallowanyaddr" /\
  boot_args (final (_build Sample.data Sample.third_party Sample.blank))
  = "-v keepsyms=1".
Proof.
  split.
  - destruct (boot_args_appended_once Sample.data Sample.stock_2070)
      as (_ & _ & Hbuild).
    destruct (Hbuild Sample.blank) as [Hyes _].
    rewrite Hyes; [ reflexivity | ].
    vm_compute. do 2 apply list_elem_of_further. apply list_elem_of_here.
  - destruct (boot_args_appended_once Sample.data Sample.third_party)
      as (_ & _ & Hbuild).
    destruct (Hbuild Sample.blank) as [_ Hno].
    rewrite Hno; [ reflexivity | ].
    vm_compute. intros Hin.
    repeat (apply elem_of_cons in Hin as [Heq | Hin]; [ discriminate Heq | ]).
    by apply elem_of_nil in Hin.
Defined.

Lemma apply_actions_workaround_block
      (pre post : list PatchAction) (cfg : Config) :
  firmware_free pre -> firmware_free post ->
  nvram_add (apply_actions (pre ++ workaround_actions ++ post) cfg)
  = <["bluetoothExternalDongleFailed" := zero_bytes 1]>
      (<["bluetoothInternalControllerInfo" := zero_bytes 14]> (nvram_add cfg)) /\
  nvram_delete (apply_actions (pre ++ workaround_actions ++ post) cfg)
  = nvram_delete cfg
    ++ ["bluetoothInternalControllerInfo"; "bluetoothExternalDongleFailed"].
Proof.
  intros Hpre Hpost. rewrite !apply_actions_app.
  destruct (apply_actions_firmware_free
              post (apply_actions workaround_actions (apply_actions pre cfg)) Hpost)
    as [-> ->].
  destruct (apply_actions_firmware_free pre cfg Hpre) as [Ha Hd].
  cbn. rewrite Ha, Hd. by rewrite <- app_assoc.
Qed.

Lemma nvram_add_get_other (cfg : Config) (key : string) :
  key <> "boot-args" ->
  nvram_add_get cfg key = NvBytes <$> nvram_add cfg !! key.
Proof. intros H. unfold nvram_add_get. by rewrite decide_False. Qed.

Lemma nvram_follows_well_placed (c : Constants) (run : M ()) :
  config_oblivious run ->
  (forall cfg, workaround_well_placed c (trace (run cfg))) ->
  boot_args_follow_trace run ->
  (forall cfg, AllowAnyAddress ∈ trace (run cfg) ->
               contiguous_in workaround_actions (trace (run cfg))) ->
  nvram_follows_trace run.
Proof.
  intros Hobl Hplaced Hboot Hcoupled cfg.
  pose proof (final_by_trace run cfg Hobl) as Hfinal.
  destruct (Hplaced cfg) as [Hff | (pre & post & Heq & _ & Hpre & Hpost)].
  - destruct (apply_actions_firmware_free _ cfg Hff) as [Ha Hd].
    rewrite <- Hfinal in Ha, Hd.
    pose proof (firmware_free_no_workaround _ Hff) as Hnone.
    assert (Hargs : boot_args (final (run cfg)) = boot_args cfg).
    { apply Hboot. intros Hin. by apply Hnone, Hcoupled. }
    assert (Hget : forall key,
               nvram_add_get (final (run cfg)) key = nvram_add_get cfg key).
    { intros key. unfold nvram_add_get. by rewrite Hargs, Ha. }
    split; [ | split ].
    + intros Hin. by destruct Hnone.
    + done.
    + intros key _ _ _. apply Hget.
  - rewrite Heq in Hfinal.
    destruct (apply_actions_workaround_block pre post cfg Hpre Hpost) as [Ha Hd].
    rewrite <- Hfinal in Ha, Hd.
    split; [ | split ].
    + intros _. rewrite !nvram_add_get_other, Ha by done.
      rewrite lookup_insert_ne by done. rewrite !lookup_insert_eq. done.
    + intros Hno. destruct Hno. rewrite Heq. by exists pre, post.
    + intros key H1 H2 H3. rewrite !nvram_add_get_other, Ha by done.
      by rewrite !lookup_insert_ne.
Qed.

(** X6.  What a resolution does to the NVRAM sections can be read off its
    actions.  If the workaround block is among them, the two variables
    bluetoothInternalControllerInfo and bluetoothExternalDongleFailed end up
    as 14 and 1 zero bytes, whatever they were before, and the two keys are
    appended to the Delete list; otherwise the whole dictionary NVRAM / Add,
    boot-args included, and the Delete list are unchanged.  In either case
    every key of the dictionary other than these two and boot-args keeps its
    value. *)
Theorem nvram_touched_by_workaround_only (D : Datasets) (self : BuildBluetooth) :
  nvram_follows_trace (_on_model D self) /\
  nvram_follows_trace (_prebuilt_assumption D self) /\
  nvram_follows_trace (_build D self).
Proof.
  assert (Hlive : nvram_follows_trace (_on_model D self)).
  { apply (nvram_follows_well_placed (constants self)).
    - apply oblivious_on_model.
    - apply well_placed_on_model.
    - apply boot_args_follow_on_model.
    - intros cfg. apply (coupling_on_model D self cfg). }
  assert (Hfallback : nvram_follows_trace (_prebuilt_assumption D self)).
  { apply (nvram_follows_well_placed (constants self)).
    - apply oblivious_prebuilt_assumption.
    - apply well_placed_prebuilt_assumption.
    - apply boot_args_follow_prebuilt.
    - intros cfg. apply (coupling_prebuilt D self cfg). }
  split; [ exact Hlive | split; [ exact Hfallback | ] ].
  unfold _build. by destruct (_ && _).
Qed.

Lemma nvram_touched_by_workaround_only_witness :
  nvram_add_get (final (_build Sample.data Sample.undetected Sample.blank))
                "bluetoothInternalControllerInfo"
  = Some (NvBytes (zero_bytes 14)) /\
  nvram_delete (final (_build Sample.data Sample.third_party Sample.blank)) = [].
Proof.
  split.
  - destruct (nvram_touched_by_workaround_only Sample.data Sample.undetected)
      as (_ & _ & Hbuild).
    destruct (Hbuild Sample.blank) as (Hblock & _ & _).
    apply Hblock.
    by exists [PrimaryBluetoothFixup (constants Sample.undetected); AllowAnyAddress],
              [BluetoothAddressSpoof (constants Sample.undetected)].
  - destruct (nvram_touched_by_workaround_only Sample.data Sample.third_party)
      as (_ & _ & Hbuild).
    destruct (Hbuild Sample.blank) as (_ & Hnone & _).
    destruct Hnone as [_ ->]; [ | reflexivity ].
    apply firmware_free_no_workaround. firmware_free_list.
Defined.








(** X8.  Under the custom-model override the probe has no say: two
    constructions with the override on, the same model and the same patch
    versions and paths do the same to every document, whatever chipset and
    wireless card each machine reports. *)
Theorem custom_model_ignores_probe
        (D : Datasets) (m : string) (c c' : Constants) :
  custom_model c = true -> custom_model c' = true ->
  same_patches c c' ->
  __init__ D m c = __init__ D m c'.
Proof.
  intros H H' (Hv & Hp & Hsv & Hsp).
  unfold __init__, _build. cbn [constants]. rewrite H, H'. cbn [negb andb].
  unfold _prebuilt_assumption. cbn [constants model].
  by rewrite Hv, Hp, Hsv, Hsp.
Qed.

Lemma custom_model_ignores_probe_witness :
  __init__ Sample.data "MacBookPro8,1"
           (Sample.machine (Some "BRCM20702 Hub") (Some Sample.card4360) true)
  = __init__ Sample.data "MacBookPro8,1" (Sample.machine None None true).
Proof.
  apply custom_model_ignores_probe; [ reflexivity | reflexivity | ].
  repeat split.
Defined.

(** X9.  Only the BRCM20702 branch consults the table and the wireless
    card: for any other detected chipset, [_on_model] does the same whatever
    the reference data, the model and the wireless card are, as long as the
    chipset and the patch versions and paths agree. *)
Theorem other_chipsets_ignore_table
        (D D' : Datasets) (self self' : BuildBluetooth) :
  bluetooth_chipset (self_computer self) <> Some "BRCM20702 Hub" ->
  bluetooth_chipset (self_computer self') = bluetooth_chipset (self_computer self) ->
  same_patches (constants self) (constants self') ->
  _on_model D self = _on_model D' self'.
Proof.
  intros Hne Heq (Hv & Hp & Hsv & Hsp). unfold _on_model.
  rewrite Heq, (bool_decide_eq_false_2 _ Hne).
  by rewrite Hv, Hp, Hsv, Hsp.
Qed.

Lemma other_chipsets_ignore_table_witness :
  _on_model Sample.data Sample.stock_2070
  = _on_model Sample.data_without_generation
              (Sample.build "PowerMac7,3" (Some "BRCM2070 Hub")
                            (Some Sample.card4331) true).
Proof.
  apply other_chipsets_ignore_table; [ discriminate | reflexivity | ].
  repeat split.
Defined.

(** X10.  [_prebuilt_assumption] depends on the model's Bluetooth tier, the
    two tier thresholds and the patch versions and paths, and on nothing
    else: not on the probe, not on the CPU generation, not on the rest of
    the table. *)
Theorem fallback_depends_on_tier_only
        (D D' : Datasets) (self self' : BuildBluetooth) :
  smbios_dictionary D !! model self ≫= Bluetooth_Model
  = smbios_dictionary D' !! model self' ≫= Bluetooth_Model ->
  BRCM20702_v1 D = BRCM20702_v1 D' ->
  BRCM2070 D = BRCM2070 D' ->
  same_patches (constants self) (constants self') ->
  _prebuilt_assumption D self = _prebuilt_assumption D' self'.
Proof.
  intros Htier H1 H2 (Hv & Hp & Hsv & Hsp). unfold _prebuilt_assumption.
  rewrite <- H1, <- H2, <- Hv, <- Hp, <- Hsv, <- Hsp.
  destruct (smbios_dictionary D !! model self) as [entry | ];
    destruct (smbios_dictionary D' !! model self') as [entry' | ];
    cbn in Htier.
  - by rewrite Htier.
  - by rewrite Htier.
  - by rewrite <- Htier.
  - reflexivity.
Qed.

Lemma fallback_depends_on_tier_only_witness :
  _prebuilt_assumption Sample.data Sample.undetected
  = _prebuilt_assumption Sample.data_without_generation Sample.upgraded_2011.
Proof.
  apply fallback_depends_on_tier_only; try reflexivity. repeat split.
Defined.

(** X11.  A detected chipset the code does not know switches the table
    off: with the override off and a detected chipset that is none of the
    known tags, [_build] does nothing and returns, whatever the table says
    about the model. *)
Theorem unknown_chipset_blocks_fallback
        (D : Datasets) (self : BuildBluetooth) (cfg : Config) :
  custom_model (constants self) = false ->
  detected (self_computer self) ->
  bluetooth_chipset (self_computer self) ∉ Some <$> known_tags ->
  _build D self cfg = performed [] cfg.
Proof.
  intros Hcustom Hdet Hunknown. unfold _build.
  rewrite Hcustom, (proj2 (truthy_detected _) Hdet). cbn [negb andb].
  by apply run_on_model_unknown.
Qed.

Lemma unknown_chipset_blocks_fallback_witness :
  _build Sample.data Sample.odd_chipset Sample.blank = performed [] Sample.blank /\
  length (trace (_prebuilt_assumption Sample.data Sample.odd_chipset Sample.blank))
  = 7%nat.
Proof.
  split; [ | reflexivity ].
  apply unknown_chipset_blocks_fallback.
  - reflexivity.
  - by exists "CSR8510 A10".
  - vm_compute. intros Hin.
    repeat (apply elem_of_cons in Hin as [Heq | Hin]; [ discriminate Heq | ]).
    by apply elem_of_nil in Hin.
Defined.

Lemma unhexlify_length_pair (s : string) :
  (forall bs, unhexlify s = Some bs -> String.length s = (2 * length bs)%nat) /\
  (forall a bs, unhexlify (String a s) = Some bs ->
                String.length (String a s) = (2 * length bs)%nat).
Proof.
  induction s as [ | b s [IH0 IH1]].
  - split; [ by intros bs [= <-] | ]. intros a bs H. discriminate H.
  - split; [ exact (IH1 b) | ].
    intros a bs H. cbn [unhexlify] in H.
    destruct (hex_digit a) as [h | ]; [ | discriminate H ].
    destruct (hex_digit b) as [l | ]; [ | discriminate H ].
    destruct (unhexlify s) as [bs' | ]; [ | discriminate H ].
    destruct (Byte.of_N (16 * h + l)) as [x | ]; [ | discriminate H ].
    injection H as <-. cbn [String.length length].
    rewrite (IH0 bs' eq_refl). lia.
Qed.

(** X12.  [unhexlify] gives one byte for every two digits: a decoded string
    has twice as many characters as the result has bytes, a string of odd
    length is refused, and a string of [2 * n] zero digits decodes to [n]
    zero bytes. *)
Theorem unhexlify_two_digits_per_byte :
  (forall s bs, unhexlify s = Some bs -> String.length s = (2 * length bs)%nat) /\
  (forall s, Nat.Odd (String.length s) -> unhexlify s = None) /\
  (forall n, unhexlify (zero_digits n) = Some (zero_bytes n)).
Proof.
  split; [ | split ].
  - intros s. apply unhexlify_length_pair.
  - intros s [k Hodd]. destruct (unhexlify s) as [bs | ] eqn:H; [ | reflexivity ].
    apply unhexlify_length_pair in H. lia.
  - induction n as [ | n IH]; [ reflexivity | ].
    cbn [zero_digits unhexlify]. rewrite IH. reflexivity.
Qed.

Lemma unhexlify_two_digits_per_byte_witness :
  String.length "0000000000000000000000000000" = (2 * 14)%nat /\
  unhexlify "000" = None.
Proof.
  destruct unhexlify_two_digits_per_byte as (Hlen & Hodd & _).
  split.
  - apply (Hlen _ (zero_bytes 14)). reflexivity.
  - apply Hodd. exists 1%nat. reflexivity.
Defined.
